(** * clean_har: a shallow embedding of [scripts/clean_har.py]

    The script loads a HAR capture with [json.load], walks
    [log.entries], keeps the [request.url] of the entries that pass two
    tests on [request.method], and dumps the kept values over the input
    file.  Python values are embedded as the [json] type below, Python
    exceptions as the [exn] type, and a computation that may raise as a
    [result]. *)

From Stdlib Require Import ZArith Ascii String.
From stdpp Require Import base option list sorting strings gmap.

Local Set Warnings "-register-all".
Local Open Scope string_scope.
Local Open Scope list_scope.

(** ** Values produced by [json.load] *)

(** [json.load] yields [None], [bool], [int], [float], [str], [list] and
    [dict].  A [str] is carried as its UTF-8 bytes, a [float] as its
    binary64 bit pattern, and a [dict] as its items in insertion order
    (the order a [for] loop over the dict visits the keys in). *)
Inductive json : Type :=
  | JNull
  | JBool (b : bool)
  | JInt (n : Z)
  | JFloat (bits : Z)
  | JStr (s : string)
  | JArr (items : list json)
  | JObj (items : list (string * json)).

(** ** Exceptions and the error monad *)

Inductive exn : Type :=
  | KeyError (key : string)
  | TypeError
  | AttributeError
  | IndexError
  | JSONDecodeError
  | FileNotFoundError (path : string)
  | OSError.

Inductive result (A : Type) : Type :=
  | Ok (a : A)
  | Raise (e : exn).
Arguments Ok {A} a.
Arguments Raise {A} e.

#[global] Instance result_ret : MRet result := fun _ a => Ok a.

#[global] Instance result_bind : MBind result := fun _ _ k m =>
  match m with
  | Ok a => k a
  | Raise e => Raise e
  end.

(** ** The Python operations the script uses *)

Module Py.

(** [d[key]] on a dict held as its item list: the first item with that
    key. *)
Fixpoint dict_lookup (items : list (string * json)) (key : string)
  : option json :=
  match items with
  | [] => None
  | (k, v) :: rest => if String.eqb k key then Some v else dict_lookup rest key
  end.

(** [v[key]] with a [str] key: a dict raises [KeyError] on a missing
    key; a list or a str wants an integer index and the other values
    are not subscriptable, all of which are [TypeError]. *)
Definition getitem (v : json) (key : string) : result json :=
  match v with
  | JObj items =>
      match dict_lookup items key with
      | Some x => Ok x
      | None => Raise (KeyError key)
      end
  | _ => Raise TypeError
  end.

(** [v.get(key, default)]: only a dict has a [get] method. *)
Definition get (v : json) (key : string) (default : json) : result json :=
  match v with
  | JObj items =>
      match dict_lookup items key with
      | Some x => Ok x
      | None => Ok default
      end
  | _ => Raise AttributeError
  end.

(** The sequence a [for] loop visits: the items of a list, the keys of
    a dict, the characters of a str; the other values are not iterable.
    A str is held as its bytes, so a character outside ASCII shows here
    as one item per byte where Python yields one item; each item is a
    str either way, which is all the script looks at. *)
Definition iter (v : json) : result (list json) :=
  match v with
  | JArr items => Ok items
  | JObj items => Ok (map (fun kv => JStr (fst kv)) items)
  | JStr s => Ok (map (fun c => JStr (String c EmptyString)) (list_ascii_of_string s))
  | _ => Raise TypeError
  end.

(** [v != s] for a str literal [s]: a value that is not a str is never
    equal to a str. *)
Definition ne_str (v : json) (s : string) : bool :=
  match v with
  | JStr t => negb (String.eqb t s)
  | _ => true
  end.

(** [s.split(sep)] for a one-character separator: always at least one
    piece. *)
Fixpoint str_split (sep : ascii) (s : string) : list string :=
  match s with
  | EmptyString => [EmptyString]
  | String c rest =>
      if Ascii.eqb c sep then EmptyString :: str_split sep rest
      else match str_split sep rest with
           | piece :: pieces => String c piece :: pieces
           | [] => [String c EmptyString]
           end
  end.

(** [v.split(sep)]: only a str has a [split] method. *)
Definition split (v : json) (sep : ascii) : result (list string) :=
  match v with
  | JStr s => Ok (str_split sep s)
  | _ => Raise AttributeError
  end.

(** [l[-1]]. *)
Definition last_item (l : list string) : result string :=
  match last l with
  | Some x => Ok x
  | None => Raise IndexError
  end.

End Py.

(** ** The filtering pass of [clean_har] (lines 14-22) *)

(** One iteration of the [for] loop, on the list [cleaned_entries] built
    so far.  Each [continue] leaves the list as it is. *)
Definition loop_body (cleaned_entries : list json) (entry : json)
  : result (list json) :=
  request ← Py.getitem entry "request";
  method ← Py.getitem request "method";
  if Py.ne_str method "GET" then Ok cleaned_entries
  else
    request ← Py.getitem entry "request";
    method ← Py.getitem request "method";
    pieces ← Py.split method "/"%char;
    piece ← Py.last_item pieces;
    if String.eqb piece "favicon.ico" then Ok cleaned_entries
    else
      request ← Py.getitem entry "request";
      url ← Py.getitem request "url";
      Ok (cleaned_entries ++ [url]).

(** The [for] loop: the first exception ends it. *)
Fixpoint for_loop (entries : list json) (cleaned_entries : list json)
  : result (list json) :=
  match entries with
  | [] => Ok cleaned_entries
  | entry :: rest =>
      cleaned_entries' ← loop_body cleaned_entries entry;
      for_loop rest cleaned_entries'
  end.

(** [har_data.get('log', {}).get('entries', [])], as the sequence the
    loop visits. *)
Definition har_entries (har_data : json) : result (list json) :=
  log ← Py.get har_data "log" (JObj []);
  entries ← Py.get log "entries" (JArr []);
  Py.iter entries.

(** Lines 14-22: from the loaded document to the list handed to
    [json.dump]. *)
Definition cleaned (har_data : json) : result (list json) :=
  entries ← har_entries har_data;
  for_loop entries [].

(** ** Files, standard output and the [io] monad *)

Inductive mode : Type := ReadMode | WriteMode.

Inductive io_event : Type :=
  | Opened (path : string) (m : mode)
  | Closed (path : string).

(** The part of the machine the script can see or change: the content of
    each file, the lines printed so far, and the file operations done so
    far, oldest first. *)
Record world : Type := World {
  files : gmap string string;
  stdout : list string;
  io_log : list io_event
}.

Definition io (A : Type) : Type := world -> result A * world.

#[global] Instance io_ret : MRet io := fun _ a w => (Ok a, w).

#[global] Instance io_bind : MBind io := fun _ _ k m w =>
  match m w with
  | (Ok a, w') => k a w'
  | (Raise e, w') => (Raise e, w')
  end.

(** A computation that touches no file, run inside [io]. *)
Definition lift {A : Type} (r : result A) : io A := fun w => (r, w).

Definition record_event (ev : io_event) (w : world) : world :=
  {| files := files w; stdout := stdout w; io_log := io_log w ++ [ev] |}.

Definition set_content (path text : string) (w : world) : world :=
  {| files := <[path := text]> (files w); stdout := stdout w; io_log := io_log w |}.

(** [open(path, 'r')] needs the file to exist; [open(path, 'w')] creates
    or truncates it.  Here opening for writing and writing succeed; the
    write stage on a system that fails it is [open_file_under],
    [json_dump_under] and [clean_har_under] below. *)
Definition open_file (path : string) (m : mode) : io unit := fun w =>
  match m with
  | ReadMode =>
      match files w !! path with
      | Some _ => (Ok (), record_event (Opened path ReadMode) w)
      | None => (Raise (FileNotFoundError path), w)
      end
  | WriteMode =>
      (Ok (), record_event (Opened path WriteMode) (set_content path EmptyString w))
  end.

Definition close_file (path : string) : io unit := fun w =>
  (Ok (), record_event (Closed path) w).

(** [with open(path, mode) as f: body]: the file is closed when the body
    is left, also when it is left by an exception. *)
Definition with_open {A : Type} (path : string) (m : mode) (body : io A)
  : io A := fun w =>
  match open_file path m w with
  | (Raise e, w') => (Raise e, w')
  | (Ok _, w1) =>
      match body w1 with
      | (r, w2) => (r, snd (close_file path w2))
      end
  end.

(** [print(line)]. *)
Definition print (line : string) : io unit := fun w =>
  (Ok (), {| files := files w; stdout := stdout w ++ [line]; io_log := io_log w |}).

Section CleanHar.

(** The [json] module is a library: its decoder and encoder are taken as
    they come.  [json_loads text] is [None] when [json.load] raises on a
    file holding [text]; [JSONDecodeError] stands for whatever it raises
    then (a text that is not UTF-8 or is nested too deep included). *)
Variable json_loads : string -> option json.
Variable json_dumps : list json -> string.

(** [json.load(f)] on the file opened at [path]. *)
Definition json_load (path : string) : io json := fun w =>
  match files w !! path with
  | Some text =>
      match json_loads text with
      | Some v => (Ok v, w)
      | None => (Raise JSONDecodeError, w)
      end
  | None => (Raise (FileNotFoundError path), w)
  end.

(** [json.dump(v, f)] on the file opened at [path]: the text goes after
    what the file holds. *)
Definition json_dump (v : list json) (path : string) : io unit := fun w =>
  (Ok (), set_content path (default EmptyString (files w !! path) +:+ json_dumps v) w).

(** [clean_har(input_file)], lines 7-25. *)
Definition clean_har (input_file : string) : io unit :=
  har_data ← with_open input_file ReadMode (json_load input_file);
  cleaned_entries ← lift (cleaned har_data);
  with_open input_file WriteMode (json_dump cleaned_entries input_file).

(** ** The command line (lines 28-35) *)

(** How the process ends: [sys.exit(code)] or falling off the end of the
    script (code 0), or an exception nobody catches. *)
Inductive outcome : Type :=
  | Exited (code : Z)
  | Uncaught (e : exn).

Definition usage : string := "Usage: python clean_har.py <input_har_file>".

(** [sys.argv[1]]. *)
Definition argv_1 (argv : list string) : result string :=
  match argv !! 1%nat with
  | Some a => Ok a
  | None => Raise IndexError
  end.

Definition main (argv : list string) (w : world) : outcome * world :=
  if negb (length argv =? 2)%nat then
    (Exited 1, snd (print usage w))
  else
    match (input_har_file ← lift (argv_1 argv); clean_har input_har_file) w with
    | (Ok _, w') => (Exited 0, w')
    | (Raise e, w') => (Uncaught e, w')
    end.

End CleanHar.

(** ** The write stage on a system that fails it (lines 24-25) *)

(** What the system does to the write stage: nothing; or [open(path,
    'w')] raises, before the file is touched; or [json.dump], or the
    close that flushes it, raises when [written] characters of the text
    have reached the file. *)
Inductive write_fault : Type :=
  | NoFault
  | OpenFails
  | DumpFails (written : nat).

(** The first [n] characters of a text. *)
Fixpoint string_take (n : nat) (text : string) : string :=
  match n, text with
  | S n', String c rest => String c (string_take n' rest)
  | _, _ => EmptyString
  end.

Definition open_file_under (fault : write_fault) (path : string) (m : mode)
  : io unit := fun w =>
  match m, fault with
  | WriteMode, OpenFails => (Raise OSError, w)
  | _, _ => open_file path m w
  end.

Definition with_open_under {A : Type} (fault : write_fault) (path : string)
    (m : mode) (body : io A) : io A := fun w =>
  match open_file_under fault path m w with
  | (Raise e, w') => (Raise e, w')
  | (Ok _, w1) =>
      match body w1 with
      | (r, w2) => (r, snd (close_file path w2))
      end
  end.

Section CleanHarUnder.

Variable json_loads : string -> option json.
Variable json_dumps : list json -> string.

Definition json_dump_under (fault : write_fault) (v : list json) (path : string)
  : io unit := fun w =>
  match fault with
  | DumpFails written =>
      (Raise OSError,
       set_content path
         (default EmptyString (files w !! path)
            +:+ string_take written (json_dumps v)) w)
  | _ => json_dump json_dumps v path w
  end.

(** [clean_har(input_file)] on such a system. *)
Definition clean_har_under (fault : write_fault) (input_file : string) : io unit :=
  har_data ← with_open input_file ReadMode (json_load json_loads input_file);
  cleaned_entries ← lift (cleaned har_data);
  with_open_under fault input_file WriteMode
    (json_dump_under fault cleaned_entries input_file).

Definition main_under (fault : write_fault) (argv : list string) (w : world)
  : outcome * world :=
  if negb (length argv =? 2)%nat then
    (Exited 1, snd (print usage w))
  else
    match (input_har_file ← lift (argv_1 argv);
           clean_har_under fault input_har_file) w with
    | (Ok _, w') => (Exited 0, w')
    | (Raise e, w') => (Uncaught e, w')
    end.

End CleanHarUnder.

(** ** Vocabulary for the statements *)

(** The field [key] of a record, when [v] is a record that has it. *)
Definition field (v : json) (key : string) : option json :=
  match v with
  | JObj items => Py.dict_lookup items key
  | _ => None
  end.

(** [entry.request.key]. *)
Definition request_field (entry : json) (key : string) : option json :=
  field entry "request" ≫= fun request => field request key.

(** The entry has both [request.method] and [request.url]. *)
Definition well_formed (entry : json) : Prop :=
  is_Some (request_field entry "method") ∧ is_Some (request_field entry "url").

(** [request.method] is the string [GET]. *)
Definition is_get (entry : json) : bool :=
  match request_field entry "method" with
  | Some (JStr m) => String.eqb m "GET"
  | _ => false
  end.

(** The [request.url] values of the entries whose method is [GET]. *)
Definition get_urls (entries : list json) : list json :=
  omap (fun entry => request_field entry "url") (List.filter is_get entries).



(** A document without entries: no [log] field, a [log] record without
    an [entries] field, or an empty [entries] list. *)
Inductive no_entries : json -> Prop :=
  | no_log (items : list (string * json)) :
      Py.dict_lookup items "log" = None ->
      no_entries (JObj items)
  | no_entries_field (items log_items : list (string * json)) :
      Py.dict_lookup items "log" = Some (JObj log_items) ->
      Py.dict_lookup log_items "entries" = None ->
      no_entries (JObj items)
  | empty_entries (items log_items : list (string * json)) :
      Py.dict_lookup items "log" = Some (JObj log_items) ->
      Py.dict_lookup log_items "entries" = Some (JArr []) ->
      no_entries (JObj items).

(** The positions of the entries whose method is [GET], in increasing
    order. *)
Fixpoint surviving_positions (entries : list json) : list nat :=
  match entries with
  | [] => []
  | entry :: rest =>
      (if is_get entry then [0%nat] else []) ++ map S (surviving_positions rest)
  end.

(** A log in which every file opened is closed before anything else is
    opened. *)
Fixpoint balanced (events : list io_event) : bool :=
  match events with
  | [] => true
  | Opened path _ :: Closed path' :: rest => String.eqb path path' && balanced rest
  | _ => false
  end.

(** The final [/]-delimited segment of a string. *)
Definition final_segment (s : string) : option string :=
  last (Py.str_split "/"%char s).

(** The simpler pass: no favicon test, the url of every entry whose
    method is [GET]. *)
Definition simple_body (cleaned_entries : list json) (entry : json)
  : result (list json) :=
  request ← Py.getitem entry "request";
  method ← Py.getitem request "method";
  if Py.ne_str method "GET" then Ok cleaned_entries
  else
    request ← Py.getitem entry "request";
    url ← Py.getitem request "url";
    Ok (cleaned_entries ++ [url]).

Fixpoint simple_loop (entries : list json) (cleaned_entries : list json)
  : result (list json) :=
  match entries with
  | [] => Ok cleaned_entries
  | entry :: rest =>
      cleaned_entries' ← simple_body cleaned_entries entry;
      simple_loop rest cleaned_entries'
  end.

Definition simple_cleaned (har_data : json) : result (list json) :=
  entries ← har_entries har_data;
  simple_loop entries [].

(** The world after a run of [clean_har path] that stopped between the
    read and the write: the file was opened for reading and closed, and
    nothing else happened. *)
Definition read_only (path : string) (w : world) : world :=
  {| files := files w;
     stdout := stdout w;
     io_log := io_log w ++ [Opened path ReadMode; Closed path] |}.

(** The world after a run of [clean_har path] that wrote [text]. *)
Definition rewritten (path text : string) (w : world) : world :=
  {| files := <[path := text]> (files w);
     stdout := stdout w;
     io_log := io_log w ++ [Opened path ReadMode; Closed path;
                            Opened path WriteMode; Closed path] |}.

(** A dict, as opposed to the other values [json.load] yields. *)
Definition is_dict (v : json) : bool :=
  match v with
  | JObj _ => true
  | _ => false
  end.

(** What an iteration needs of an entry not to raise: a
    [request.method], and a [request.url] when the method is [GET]. *)
Definition acceptable (entry : json) : Prop :=
  is_Some (request_field entry "method") ∧
  (is_get entry = true -> is_Some (request_field entry "url")).

(** ** Sample data *)

Definition entry_with (method url : string) : json :=
  JObj [("request", JObj [("method", JStr method); ("url", JStr url)])].

(** The capture of the specification's example. *)
Definition sample_har : json :=
  JObj [("log", JObj [("entries", JArr [
    entry_with "GET" "https://a.com/";
    entry_with "POST" "https://a.com/submit";
    entry_with "GET" "https://a.com/img.png"])])].

Definition sample_urls : list json :=
  [JStr "https://a.com/"; JStr "https://a.com/img.png"].

(** Stand-ins for the [json] module in the examples: an encoder that
    writes the strings one per line, and a decoder that knows the texts
    of a table. *)
Definition sample_dumps (v : list json) : string :=
  String.concat "; " (map (fun x => match x with JStr s => s | _ => "?" end) v).

Definition table_loads (table : list (string * json)) (text : string)
  : option json :=
  Py.dict_lookup table text.

Definition sample_text : string := "<the capture>".

(** The decoder of the sample capture and of its cleaned form. *)
Definition sample_loads : string -> option json :=
  table_loads [(sample_text, sample_har);
               (sample_dumps sample_urls, JArr sample_urls)].

Definition world_with (text : string) : world :=
  {| files := {[ "capture.har" := text ]}; stdout := []; io_log := [] |}.

Definition sample_world : world := world_with sample_text.

(** The sample world after one run of [clean_har] on the capture. *)
Definition cleaned_world : world :=
  snd (clean_har sample_loads sample_dumps "capture.har" sample_world).

(** An entry without a url, one without a request, and a capture that
    holds the latter behind a well-formed entry. *)
Definition post_entry : json :=
  JObj [("request", JObj [("method", JStr "POST")])].

Definition bare_entry : json := JObj [("startedDateTime", JStr "2024-01-01")].


(** A [GET] entry without a url, and entries that are not records. *)
Definition get_entry_no_url : json :=
  JObj [("request", JObj [("method", JStr "GET")])].

Definition request_without_method : json :=
  JObj [("request", JObj [("url", JStr "https://a.com/")])].

Definition scalar_request_entry : json :=
  JObj [("request", JStr "GET https://a.com/")].

(** A capture with the given entries, and an entry that carries more
    than the pass reads. *)
Definition har_of (entries : list json) : json :=
  JObj [("log", JObj [("entries", JArr entries)])].

Definition noisy_entry (method url : string) : json :=
  JObj [("startedDateTime", JStr "2024-01-01");
        ("request", JObj [("headers", JArr []);
                          ("method", JStr method);
                          ("url", JStr url)]);
        ("response", JObj [("status", JInt 200)])].

(** * Properties *)

(** ** Field access *)

Lemma getitem_field (v : json) (key : string) (x : json) :
  field v key = Some x -> Py.getitem v key = Ok x.
Proof.
  destruct v; simpl; try discriminate.
  intros ->. reflexivity.
Qed.

Lemma request_field_inv (entry : json) (key : string) (x : json) :
  request_field entry key = Some x ->
  exists request, field entry "request" = Some request /\ field request key = Some x.
Proof.
  unfold request_field. destruct (field entry "request") as [request|] eqn:E.
  - simpl. intros H. exists request. split; [reflexivity | exact H].
  - discriminate.
Qed.

Lemma ne_str_true (m : json) (s : string) :
  Py.ne_str m s = true <-> m <> JStr s.
Proof.
  destruct m; simpl; try (split; [discriminate | reflexivity]).
  destruct (String.eqb_spec s0 s) as [->|Hne]; simpl.
  - split; [discriminate | intros H; contradiction H; reflexivity].
  - split; [intros _ [=]; contradiction | reflexivity].
Qed.

(** ** One iteration *)

(** The first [continue]: any method other than the string [GET]. *)
Lemma loop_body_skip (acc : list json) (entry m : json) :
  request_field entry "method" = Some m ->
  Py.ne_str m "GET" = true ->
  loop_body acc entry = Ok acc.
Proof.
  intros Hm Hne.
  destruct (request_field_inv _ _ _ Hm) as (request & Hr & Hf).
  unfold loop_body.
  rewrite (getitem_field _ _ _ Hr). simpl.
  rewrite (getitem_field _ _ _ Hf). simpl.
  rewrite Hne. reflexivity.
Qed.

(** Past both tests: the url is appended, or its absence is a
    [KeyError]. *)
Lemma loop_body_get (acc : list json) (entry : json) :
  request_field entry "method" = Some (JStr "GET") ->
  loop_body acc entry =
    match request_field entry "url" with
    | Some url => Ok (acc ++ [url])
    | None => Raise (KeyError "url")
    end.
Proof.
  intros Hm.
  destruct (request_field_inv _ _ _ Hm) as (request & Hr & Hf).
  unfold loop_body, request_field.
  rewrite (getitem_field _ _ _ Hr). simpl.
  rewrite (getitem_field _ _ _ Hf). simpl.
  rewrite Hr. simpl.
  destruct request; try discriminate. simpl.
  destruct (Py.dict_lookup items "url"); reflexivity.
Qed.

Lemma is_get_true (entry : json) :
  is_get entry = true <-> request_field entry "method" = Some (JStr "GET").
Proof.
  unfold is_get. destruct (request_field entry "method") as [[]|]; try (split; discriminate).
  destruct (String.eqb_spec s "GET") as [->|Hne].
  - split; reflexivity.
  - split; [discriminate | intros [=]; contradiction].
Qed.

Lemma is_get_false (entry m : json) :
  request_field entry "method" = Some m ->
  is_get entry = false -> Py.ne_str m "GET" = true.
Proof.
  unfold is_get. intros ->. destruct m; try reflexivity.
  simpl. intros ->. reflexivity.
Qed.

(** ** The loop *)

Lemma for_loop_app (es1 es2 : list json) (acc : list json) :
  for_loop (es1 ++ es2) acc = (acc' ← for_loop es1 acc; for_loop es2 acc').
Proof.
  revert acc. induction es1 as [|e es1 IH]; intros acc; simpl.
  - reflexivity.
  - destruct (loop_body acc e) as [acc'|err]; simpl.
    + apply IH.
    + reflexivity.
Qed.

Lemma get_urls_cons (entry : json) (entries : list json) :
  get_urls (entry :: entries) =
    (if is_get entry then option_list (request_field entry "url") else [])
    ++ get_urls entries.
Proof.
  unfold get_urls. simpl. destruct (is_get entry); simpl.
  - destruct (request_field entry "url"); reflexivity.
  - reflexivity.
Qed.

Lemma for_loop_well_formed (entries : list json) (acc : list json) :
  Forall well_formed entries ->
  for_loop entries acc = Ok (acc ++ get_urls entries).
Proof.
  intros Hwf. revert acc.
  induction Hwf as [|e es [[m Hm] [u Hu]] _ IH]; intros acc.
  - simpl. rewrite app_nil_r. reflexivity.
  - simpl. rewrite get_urls_cons.
    destruct (is_get e) eqn:Hg.
    + apply is_get_true in Hg. rewrite (loop_body_get _ _ Hg), Hu. simpl.
      rewrite IH, <- app_assoc. reflexivity.
    + rewrite (loop_body_skip _ _ _ Hm (is_get_false _ _ Hm Hg)). simpl.
      apply IH.
Qed.

Lemma for_loop_drop (before after : list json) (entry : json) :
  (forall acc, loop_body acc entry = Ok acc) ->
  forall acc, for_loop (before ++ entry :: after) acc = for_loop (before ++ after) acc.
Proof.
  intros Hskip acc. rewrite !for_loop_app.
  destruct (for_loop before acc) as [acc'|err]; simpl.
  - rewrite Hskip. reflexivity.
  - reflexivity.
Qed.

(** ** Entries that are dropped *)

(** C3: an entry whose [request.method] is anything but the string [GET]
    contributes nothing: its iteration leaves the list built so far as it
    is and does not raise, and the loop over a sequence holding the entry
    gives what it gives without the entry.  Nothing is asked of the
    entry's [request.url], which may hold any value or be absent. *)
Theorem non_get_entry_contributes_nothing (entry m : json) :
  request_field entry "method" = Some m ->
  m <> JStr "GET" ->
  (forall acc, loop_body acc entry = Ok acc) /\
  (forall before after acc,
     for_loop (before ++ entry :: after) acc = for_loop (before ++ after) acc).
Proof.
  intros Hm Hne.
  assert (Hskip : forall acc, loop_body acc entry = Ok acc).
  { intros acc. apply (loop_body_skip acc entry m Hm). apply ne_str_true, Hne. }
  split; [exact Hskip | intros before after; apply for_loop_drop, Hskip].
Qed.

Lemma final_segment_get : final_segment "GET" = Some "GET".
Proof. reflexivity. Qed.

(** C4: an entry whose method string has [favicon.ico] as its final
    [/]-segment is excluded, whatever its url; such a method string is
    not [GET], so the statement needs no separate assumption that the
    entry got past the first test.  The test reads the method, not the
    url: a [GET] entry is kept with its url whatever the url's final
    segment is. *)
Theorem favicon_method_entry_excluded (entry : json) (m : string) :
  request_field entry "method" = Some (JStr m) ->
  final_segment m = Some "favicon.ico" ->
  (forall acc, loop_body acc entry = Ok acc) /\
  (forall before after acc,
     for_loop (before ++ entry :: after) acc = for_loop (before ++ after) acc) /\
  (forall acc url, loop_body acc (entry_with "GET" url) = Ok (acc ++ [JStr url])).
Proof.
  intros Hm Hseg.
  assert (Hne : JStr m <> JStr "GET").
  { intros [= ->]. rewrite final_segment_get in Hseg. discriminate. }
  assert (Hskip : forall acc, loop_body acc entry = Ok acc).
  { intros acc. apply (loop_body_skip acc entry _ Hm). apply ne_str_true, Hne. }
  split; [exact Hskip |].
  split; [intros before after; apply for_loop_drop, Hskip |].
  intros acc url. reflexivity.
Qed.

(** ** The favicon test never fires *)

Lemma ne_str_false (m : json) (s : string) :
  Py.ne_str m s = false -> m = JStr s.
Proof.
  destruct m; simpl; try discriminate.
  destruct (String.eqb_spec s0 s) as [->|]; [reflexivity | discriminate].
Qed.

Lemma loop_body_simple (acc : list json) (entry : json) :
  loop_body acc entry = simple_body acc entry.
Proof.
  unfold loop_body, simple_body.
  destruct (Py.getitem entry "request") as [request|err]; simpl; [|reflexivity].
  destruct (Py.getitem request "method") as [method|err] eqn:Hmethod; simpl;
    [|reflexivity].
  destruct (Py.ne_str method "GET") eqn:Hne; [reflexivity|].
  apply ne_str_false in Hne. subst method.
  reflexivity.
Qed.

Lemma for_loop_simple (entries : list json) (acc : list json) :
  for_loop entries acc = simple_loop entries acc.
Proof.
  revert acc. induction entries as [|e es IH]; intros acc; simpl.
  - reflexivity.
  - rewrite loop_body_simple.
    destruct (simple_body acc e); simpl; [apply IH | reflexivity].
Qed.

(** C10: the favicon test is dead code.  A method that got past the
    first test is the string [GET], whose split has the single piece
    [GET], so the comparison with [favicon.ico] is false; hence each
    iteration, and the whole pass, computes what the pass without the
    favicon test computes, on every input, exceptions included. *)
Theorem favicon_check_dead :
  (forall method,
     Py.ne_str method "GET" = false ->
     exists piece,
       (pieces ← Py.split method "/"%char; Py.last_item pieces) = Ok piece /\
       String.eqb piece "favicon.ico" = false) /\
  (forall acc entry, loop_body acc entry = simple_body acc entry) /\
  (forall har_data, cleaned har_data = simple_cleaned har_data).
Proof.
  split; [|split].
  - intros method Hne. apply ne_str_false in Hne. subst method.
    exists "GET". split; reflexivity.
  - exact loop_body_simple.
  - intros har_data. unfold cleaned, simple_cleaned.
    destruct (har_entries har_data); simpl; [apply for_loop_simple | reflexivity].
Qed.

(** ** Order *)

Lemma surviving_positions_elem (entries : list json) (i : nat) :
  i ∈ surviving_positions entries <->
  exists entry, entries !! i = Some entry /\ is_get entry = true.
Proof.
  revert i. induction entries as [|e es IH]; intros i; simpl.
  - split; [intros H; inversion H | intros (entry & H & _); discriminate].
  - rewrite elem_of_app, list_elem_of_fmap. split.
    + intros [H | (j & -> & Hj)].
      * destruct (is_get e) eqn:Hg; [|inversion H].
        apply list_elem_of_singleton in H. subst i. exists e. split; [reflexivity | exact Hg].
      * apply IH in Hj. exact Hj.
    + intros (entry & Hi & Hg). destruct i as [|j]; simpl in Hi.
      * injection Hi as ->. left. rewrite Hg. apply list_elem_of_singleton. reflexivity.
      * right. exists j. split; [reflexivity | apply IH; exists entry; split; assumption].
Qed.

Lemma surviving_positions_sorted (entries : list json) :
  StronglySorted lt (surviving_positions entries).
Proof.
  induction entries as [|e es IH]; simpl.
  - constructor.
  - assert (Hs : StronglySorted lt (map S (surviving_positions es))).
    { apply (StronglySorted_fmap S lt lt); [|exact IH].
      intros x y Hxy. lia. }
    destruct (is_get e); simpl; [|exact Hs].
    constructor; [exact Hs |].
    apply Forall_forall. intros j Hj.
    apply list_elem_of_fmap in Hj as (k & -> & _). lia.
Qed.

Lemma surviving_positions_urls (entries : list json) :
  Forall well_formed entries ->
  Forall2 (fun i url => exists entry,
             entries !! i = Some entry /\ request_field entry "url" = Some url)
          (surviving_positions entries) (get_urls entries).
Proof.
  induction 1 as [|e es [_ [u Hu]] _ IH].
  - constructor.
  - simpl. rewrite get_urls_cons. apply Forall2_app.
    + destruct (is_get e); [|constructor].
      rewrite Hu. simpl. constructor; [|constructor].
      exists e. split; [reflexivity | exact Hu].
    + apply Forall2_fmap_l. exact IH.
Qed.

(** C5: on a well-formed document the pass is order preserving.  The
    surviving entries sit at strictly increasing positions of the input
    sequence, and the output lists, position by position, the
    [request.url] of the entry at each of them: the k-th output url
    comes from the k-th surviving entry. *)
Theorem output_order_preserved (har_data : json) (entries : list json) :
  har_entries har_data = Ok entries ->
  Forall well_formed entries ->
  exists out,
    cleaned har_data = Ok out /\
    StronglySorted lt (surviving_positions entries) /\
    (forall i, i ∈ surviving_positions entries <->
               exists entry, entries !! i = Some entry /\ is_get entry = true) /\
    Forall2 (fun i url => exists entry,
               entries !! i = Some entry /\ request_field entry "url" = Some url)
            (surviving_positions entries) out.
Proof.
  intros He Hwf. exists (get_urls entries).
  split; [|split; [|split]].
  - unfold cleaned. rewrite He. simpl. apply (for_loop_well_formed entries [] Hwf).
  - apply surviving_positions_sorted.
  - apply surviving_positions_elem.
  - apply surviving_positions_urls, Hwf.
Qed.

(** ** Entries that lack a field *)




(** ** Runs of [clean_har] *)

Section Runs.

Variable json_loads : string -> option json.
Variable json_dumps : list json -> string.

Lemma record_event_twice (ev1 ev2 : io_event) (w : world) :
  record_event ev2 (record_event ev1 w) =
    {| files := files w; stdout := stdout w; io_log := io_log w ++ [ev1; ev2] |}.
Proof.
  unfold record_event. simpl. rewrite <- app_assoc. reflexivity.
Qed.

(** The read stage: open, [json.load], close. *)
Lemma read_stage (path text : string) (w : world) :
  files w !! path = Some text ->
  with_open path ReadMode (json_load json_loads path) w =
    (match json_loads text with
     | Some har_data => Ok har_data
     | None => Raise JSONDecodeError
     end, read_only path w).
Proof.
  intros Hf. unfold with_open, open_file, json_load, close_file. rewrite Hf. simpl.
  rewrite Hf. destruct (json_loads text); simpl; rewrite record_event_twice; reflexivity.
Qed.

(** The write stage: truncate, [json.dump], close. *)
Lemma write_stage (path : string) (out : list json) (w : world) :
  with_open path WriteMode (json_dump json_dumps out path) (read_only path w) =
    (Ok (), rewritten path (json_dumps out) w).
Proof.
  unfold with_open, open_file, json_dump, close_file, rewritten, read_only,
    record_event, set_content. simpl.
  rewrite lookup_insert_eq, insert_insert_eq. simpl.
  rewrite <- !app_assoc. reflexivity.
Qed.

Lemma clean_har_missing (path : string) (w : world) :
  files w !! path = None ->
  clean_har json_loads json_dumps path w = (Raise (FileNotFoundError path), w).
Proof.
  intros Hf. unfold clean_har, mbind, io_bind, with_open, open_file. rewrite Hf.
  reflexivity.
Qed.

Lemma clean_har_undecodable (path text : string) (w : world) :
  files w !! path = Some text ->
  json_loads text = None ->
  clean_har json_loads json_dumps path w = (Raise JSONDecodeError, read_only path w).
Proof.
  intros Hf Hl. unfold clean_har, mbind, io_bind.
  rewrite (read_stage _ _ _ Hf), Hl. reflexivity.
Qed.

Lemma clean_har_raises (path text : string) (har_data : json) (e : exn) (w : world) :
  files w !! path = Some text ->
  json_loads text = Some har_data ->
  cleaned har_data = Raise e ->
  clean_har json_loads json_dumps path w = (Raise e, read_only path w).
Proof.
  intros Hf Hl Hc. unfold clean_har, mbind, io_bind.
  rewrite (read_stage _ _ _ Hf), Hl. unfold lift. rewrite Hc. reflexivity.
Qed.

Lemma clean_har_writes (path text : string) (har_data : json) (out : list json)
    (w : world) :
  files w !! path = Some text ->
  json_loads text = Some har_data ->
  cleaned har_data = Ok out ->
  clean_har json_loads json_dumps path w =
    (Ok (), rewritten path (json_dumps out) w).
Proof.
  intros Hf Hl Hc. unfold clean_har, mbind, io_bind.
  rewrite (read_stage _ _ _ Hf), Hl. unfold lift. rewrite Hc.
  apply write_stage.
Qed.

(** ** What a run writes *)

Lemma cleaned_well_formed (har_data : json) (entries : list json) :
  har_entries har_data = Ok entries ->
  Forall well_formed entries ->
  cleaned har_data = Ok (get_urls entries).
Proof.
  intros He Hwf. unfold cleaned. rewrite He. simpl.
  apply (for_loop_well_formed entries [] Hwf).
Qed.

(** C1: on a well-formed document, one whose entries all have
    [request.method] and [request.url], the pass yields exactly the
    [request.url] values of the entries whose [request.method] is [GET],
    and the run writes that list over the file; in particular the run on
    the example capture writes the two urls [https://a.com/] and
    [https://a.com/img.png]. *)
Theorem clean_har_keeps_get_urls :
  (forall path text har_data entries w,
     files w !! path = Some text ->
     json_loads text = Some har_data ->
     har_entries har_data = Ok entries ->
     Forall well_formed entries ->
     cleaned har_data = Ok (get_urls entries) /\
     clean_har json_loads json_dumps path w =
       (Ok (), rewritten path (json_dumps (get_urls entries)) w)) /\
  (forall path text w,
     files w !! path = Some text ->
     json_loads text = Some sample_har ->
     clean_har json_loads json_dumps path w =
       (Ok (), rewritten path
                 (json_dumps [JStr "https://a.com/"; JStr "https://a.com/img.png"]) w)).
Proof.
  split.
  - intros path text har_data entries w Hf Hl He Hwf.
    pose proof (cleaned_well_formed _ _ He Hwf) as Hc.
    split; [exact Hc | exact (clean_har_writes path text har_data _ w Hf Hl Hc)].
  - intros path text w Hf Hl.
    apply (clean_har_writes path text sample_har _ w Hf Hl). reflexivity.
Qed.

Lemma cleaned_no_entries (har_data : json) :
  no_entries har_data -> cleaned har_data = Ok [].
Proof.
  intros [items Hlog | items log_items Hlog Hent | items log_items Hlog Hent];
    unfold cleaned, har_entries; simpl; rewrite Hlog; simpl;
    try rewrite Hent; reflexivity.
Qed.

(** C2: when the top-level record has no [log] field, or its [log]
    record has no [entries] field, or [entries] is the empty list, the
    run does not fail and writes the empty array. *)
Theorem clean_har_no_entries (path text : string) (har_data : json) (w : world) :
  files w !! path = Some text ->
  json_loads text = Some har_data ->
  no_entries har_data ->
  cleaned har_data = Ok [] /\
  clean_har json_loads json_dumps path w = (Ok (), rewritten path (json_dumps []) w).
Proof.
  intros Hf Hl Hno. pose proof (cleaned_no_entries har_data Hno) as Hc.
  split; [exact Hc | exact (clean_har_writes path text har_data [] w Hf Hl Hc)].
Qed.

(** ** Runs that raise *)

(** C6, amended: a second run, on a file that holds a top-level array,
    raises [AttributeError] at the first [.get] (a list has no such
    method); nothing is written and the file keeps its content. *)
Theorem clean_har_on_array_raises (path text : string) (items : list json)
    (w : world) :
  files w !! path = Some text ->
  json_loads text = Some (JArr items) ->
  cleaned (JArr items) = Raise AttributeError /\
  clean_har json_loads json_dumps path w = (Raise AttributeError, read_only path w) /\
  files (read_only path w) = files w.
Proof.
  intros Hf Hl. split; [reflexivity |]. split; [|reflexivity].
  apply (clean_har_raises path text (JArr items) AttributeError w Hf Hl). reflexivity.
Qed.


(** C8: a run that fails while decoding the file or during the filtering
    pass raises before the file is opened for writing: the only file
    operations are the opening for reading and its close, and every file
    keeps its content. *)
Theorem clean_har_failure_keeps_file (path text : string) (w : world) :
  files w !! path = Some text ->
  (json_loads text = None \/
   exists har_data e, json_loads text = Some har_data /\ cleaned har_data = Raise e) ->
  exists e w',
    clean_har json_loads json_dumps path w = (Raise e, w') /\
    files w' = files w /\
    stdout w' = stdout w /\
    io_log w' = io_log w ++ [Opened path ReadMode; Closed path].
Proof.
  intros Hf Hfail.
  destruct Hfail as [Hl | (har_data & e & Hl & Hc)].
  - exists JSONDecodeError, (read_only path w).
    rewrite (clean_har_undecodable path text w Hf Hl). repeat split.
  - exists e, (read_only path w).
    rewrite (clean_har_raises path text har_data e w Hf Hl Hc). repeat split.
Qed.

(** ** The command line *)

(** C9: with an argument count other than one (an [argv] whose length is
    not 2, the script name included) the program prints the usage line
    on standard output and exits with code 1, and no file is read,
    written or opened; with exactly one argument it runs [clean_har] on
    that path, ending with code 0 when the run returns and with the
    uncaught exception when it raises. *)
Theorem main_usage (argv : list string) (w : world) :
  (length argv <> 2%nat ->
   main json_loads json_dumps argv w =
     (Exited 1, {| files := files w;
                   stdout := stdout w ++ [usage];
                   io_log := io_log w |})) /\
  (forall script path,
     argv = [script; path] ->
     main json_loads json_dumps argv w =
       match clean_har json_loads json_dumps path w with
       | (Ok _, w') => (Exited 0, w')
       | (Raise e, w') => (Uncaught e, w')
       end).
Proof.
  split.
  - intros Hlen. unfold main.
    destruct (Nat.eqb_spec (length argv) 2) as [Heq|_]; [contradiction|].
    reflexivity.
  - intros script path ->. unfold main. simpl.
    unfold mbind, io_bind, lift. simpl. reflexivity.
Qed.

End Runs.

(** ** Instances on the sample data *)

Lemma sample_entries_well_formed :
  Forall well_formed
    [entry_with "GET" "https://a.com/";
     entry_with "POST" "https://a.com/submit";
     entry_with "GET" "https://a.com/img.png"].
Proof.
  repeat constructor; eexists; reflexivity.
Defined.

(** The run on the sample capture writes its two [GET] urls. *)
Lemma clean_har_keeps_get_urls_sample :
  cleaned sample_har = Ok sample_urls /\
  clean_har sample_loads sample_dumps "capture.har" sample_world =
    (Ok (), rewritten "capture.har" "https://a.com/; https://a.com/img.png"
              sample_world).
Proof.
  destruct (clean_har_keeps_get_urls sample_loads sample_dumps) as [Hgen _].
  apply (Hgen "capture.har" sample_text sample_har
           [entry_with "GET" "https://a.com/";
            entry_with "POST" "https://a.com/submit";
            entry_with "GET" "https://a.com/img.png"] sample_world).
  - vm_compute. reflexivity.
  - vm_compute. reflexivity.
  - reflexivity.
  - exact sample_entries_well_formed.
Defined.

(** A capture that is an empty record is rewritten to the empty array. *)
Lemma clean_har_no_entries_sample :
  cleaned (JObj []) = Ok [] /\
  clean_har (table_loads [(sample_text, JObj [])]) sample_dumps "capture.har"
    sample_world =
    (Ok (), rewritten "capture.har" EmptyString sample_world).
Proof.
  apply (clean_har_no_entries (table_loads [(sample_text, JObj [])]) sample_dumps
           "capture.har" sample_text (JObj []) sample_world).
  - vm_compute. reflexivity.
  - vm_compute. reflexivity.
  - apply no_log. reflexivity.
Defined.

(** A [POST] entry without a url is passed over. *)
Lemma non_get_entry_contributes_nothing_sample :
  (forall acc, loop_body acc post_entry = Ok acc) /\
  (forall before after acc,
     for_loop (before ++ post_entry :: after) acc = for_loop (before ++ after) acc).
Proof.
  apply (non_get_entry_contributes_nothing post_entry (JStr "POST")).
  - reflexivity.
  - discriminate.
Defined.

(** An entry whose method is [GET/favicon.ico] is passed over. *)
Lemma favicon_method_entry_excluded_sample :
  loop_body sample_urls (entry_with "GET/favicon.ico" "https://a.com/favicon.ico")
    = Ok sample_urls /\
  loop_body sample_urls (entry_with "GET" "https://a.com/favicon.ico")
    = Ok (sample_urls ++ [JStr "https://a.com/favicon.ico"]).
Proof.
  destruct (favicon_method_entry_excluded
              (entry_with "GET/favicon.ico" "https://a.com/favicon.ico")
              "GET/favicon.ico") as (Hskip & _ & Hkeep).
  - reflexivity.
  - vm_compute. reflexivity.
  - split; [apply Hskip | apply Hkeep].
Defined.

(** The split of [GET] is the single piece [GET]. *)
Lemma favicon_check_dead_sample :
  exists piece,
    (pieces ← Py.split (JStr "GET") "/"%char; Py.last_item pieces) = Ok piece /\
    String.eqb piece "favicon.ico" = false.
Proof.
  apply (proj1 favicon_check_dead (JStr "GET")). reflexivity.
Defined.

(** The sample capture: the survivors are at positions 0 and 2. *)
Lemma output_order_preserved_sample :
  exists out,
    cleaned sample_har = Ok out /\
    StronglySorted lt [0; 2]%nat /\
    (forall i, i ∈ [0; 2]%nat <->
               exists entry,
                 [entry_with "GET" "https://a.com/";
                  entry_with "POST" "https://a.com/submit";
                  entry_with "GET" "https://a.com/img.png"] !! i = Some entry /\
                 is_get entry = true) /\
    Forall2 (fun i url => exists entry,
               [entry_with "GET" "https://a.com/";
                entry_with "POST" "https://a.com/submit";
                entry_with "GET" "https://a.com/img.png"] !! i = Some entry /\
               request_field entry "url" = Some url)
            [0; 2]%nat out.
Proof.
  apply (output_order_preserved sample_har
           [entry_with "GET" "https://a.com/";
            entry_with "POST" "https://a.com/submit";
            entry_with "GET" "https://a.com/img.png"]).
  - reflexivity.
  - exact sample_entries_well_formed.
Defined.

(** The second run on the sample: the first run left the two urls in
    the file, the decoder reads them back as an array, and the run
    raises instead of writing the empty array. *)
Lemma second_run_raises :
  files cleaned_world !! "capture.har" = Some (sample_dumps sample_urls) /\
  sample_loads (sample_dumps sample_urls) = Some (JArr sample_urls) /\
  cleaned (JArr sample_urls) = Raise AttributeError /\
  cleaned (JArr sample_urls) <> Ok [] /\
  fst (clean_har sample_loads sample_dumps "capture.har" cleaned_world)
    = Raise AttributeError /\
  clean_har sample_loads sample_dumps "capture.har" cleaned_world
    <> (Ok (), rewritten "capture.har" (sample_dumps []) cleaned_world).
Proof.
  assert (Hrun : fst (clean_har sample_loads sample_dumps "capture.har" cleaned_world)
                 = Raise AttributeError) by (vm_compute; reflexivity).
  split; [vm_compute; reflexivity |].
  split; [vm_compute; reflexivity |].
  split; [reflexivity |].
  split; [discriminate |].
  split; [exact Hrun |].
  intros Heq. rewrite Heq in Hrun. discriminate.
Qed.

Lemma clean_har_on_array_raises_sample :
  cleaned (JArr sample_urls) = Raise AttributeError /\
  clean_har sample_loads sample_dumps "capture.har" cleaned_world =
    (Raise AttributeError, read_only "capture.har" cleaned_world) /\
  files (read_only "capture.har" cleaned_world) = files cleaned_world.
Proof.
  apply (clean_har_on_array_raises sample_loads sample_dumps "capture.har"
           (sample_dumps sample_urls) sample_urls cleaned_world).
  - vm_compute. reflexivity.
  - vm_compute. reflexivity.
Defined.



(** A file the decoder rejects is left as it is. *)
Lemma clean_har_failure_keeps_file_sample :
  exists e w',
    clean_har sample_loads sample_dumps "capture.har" (world_with "{") = (Raise e, w') /\
    files w' = files (world_with "{") /\
    stdout w' = stdout (world_with "{") /\
    io_log w' = io_log (world_with "{") ++
                  [Opened "capture.har" ReadMode; Closed "capture.har"].
Proof.
  apply (clean_har_failure_keeps_file sample_loads sample_dumps "capture.har" "{"
           (world_with "{")).
  - vm_compute. reflexivity.
  - left. vm_compute. reflexivity.
Defined.

(** No argument: the usage line and exit code 1. *)
Lemma main_usage_sample :
  main sample_loads sample_dumps ["clean_har.py"] sample_world =
    (Exited 1, {| files := files sample_world;
                  stdout := [usage];
                  io_log := [] |}).
Proof.
  apply (main_usage sample_loads sample_dumps ["clean_har.py"] sample_world).
  simpl. lia.
Defined.

(** * Further properties of the pass *)

(** ** One iteration, case by case *)

Lemma loop_body_no_method (acc : list json) (entry : json) :
  request_field entry "method" = None ->
  loop_body acc entry =
    match entry with
    | JObj items =>
        match Py.dict_lookup items "request" with
        | None => Raise (KeyError "request")
        | Some (JObj _) => Raise (KeyError "method")
        | Some _ => Raise TypeError
        end
    | _ => Raise TypeError
    end.
Proof.
  unfold request_field, loop_body.
  destruct entry as [| | | | | |items]; try reflexivity. simpl.
  destruct (Py.dict_lookup items "request") as [request|]; simpl; [|reflexivity].
  destruct request as [| | | | | |ritems]; simpl; try reflexivity.
  destruct (Py.dict_lookup ritems "method"); simpl; [discriminate | reflexivity].
Qed.

Lemma is_get_ne_str (entry m : json) :
  request_field entry "method" = Some m ->
  is_get entry = negb (Py.ne_str m "GET").
Proof.
  unfold is_get. intros ->. destruct m; try reflexivity.
  simpl. rewrite negb_involutive. reflexivity.
Qed.

(** An iteration returns exactly on an acceptable entry, with the url
    appended when the method is [GET]. *)
Lemma loop_body_ok_iff (acc acc' : list json) (entry : json) :
  loop_body acc entry = Ok acc' <->
  acceptable entry /\
  acc' = acc ++ (if is_get entry then option_list (request_field entry "url") else []).
Proof.
  unfold acceptable.
  destruct (request_field entry "method") as [m|] eqn:Hm.
  - rewrite (is_get_ne_str _ _ Hm).
    destruct (Py.ne_str m "GET") eqn:Hne; simpl.
    + rewrite (loop_body_skip _ _ _ Hm Hne), app_nil_r. split.
      * intros [= <-]. split; [split; [eauto | discriminate] | reflexivity].
      * intros [_ ->]. reflexivity.
    + apply ne_str_false in Hne. subst m. rewrite (loop_body_get _ _ Hm).
      destruct (request_field entry "url") as [url|]; simpl.
      * split.
        -- intros [= <-]. split; [split; eauto | reflexivity].
        -- intros [_ ->]. reflexivity.
      * split; [discriminate |].
        intros [[_ Hurl] _]. destruct (Hurl eq_refl) as [? [=]].
  - rewrite (loop_body_no_method _ _ Hm). split.
    + destruct entry as [| | | | | |items]; try discriminate.
      destruct (Py.dict_lookup items "request") as [[]|]; discriminate.
    + intros [[[? [=]] _] _].
Qed.


(** ** The loop, case by case *)

Lemma for_loop_ok_iff (entries : list json) (acc out : list json) :
  for_loop entries acc = Ok out <->
  Forall acceptable entries /\ out = acc ++ get_urls entries.
Proof.
  revert acc. induction entries as [|e es IH]; intros acc; simpl.
  - unfold get_urls. simpl. rewrite app_nil_r. split.
    + intros [= <-]. split; [constructor | reflexivity].
    + intros [_ ->]. reflexivity.
  - rewrite get_urls_cons, Forall_cons. split.
    + destruct (loop_body acc e) as [acc'|err] eqn:Hb; simpl; [|discriminate].
      apply loop_body_ok_iff in Hb as [Hacc ->]. intros Hrest.
      apply IH in Hrest as [Hall ->].
      split; [split; assumption | rewrite <- app_assoc; reflexivity].
    + intros [[Hacc Hall] ->].
      assert (Hb : loop_body acc e = Ok (acc ++
                (if is_get e then option_list (request_field e "url") else []))).
      { apply loop_body_ok_iff. split; [exact Hacc | reflexivity]. }
      rewrite Hb. simpl. apply IH. split; [exact Hall |].
      rewrite <- app_assoc. reflexivity.
Qed.


(** The first entry on which an iteration raises decides the outcome of
    the loop. *)
Lemma for_loop_first_failure (before after : list json) (entry : json)
    (acc : list json) (e : exn) :
  Forall acceptable before ->
  (forall acc', loop_body acc' entry = Raise e) ->
  for_loop (before ++ entry :: after) acc = Raise e.
Proof.
  intros Hbefore Hraise. rewrite for_loop_app.
  assert (Hok : for_loop before acc = Ok (acc ++ get_urls before)).
  { apply for_loop_ok_iff. split; [exact Hbefore | reflexivity]. }
  rewrite Hok. simpl. rewrite Hraise. reflexivity.
Qed.

Lemma get_urls_length (entries : list json) :
  Forall acceptable entries ->
  length (get_urls entries) = length (List.filter is_get entries).
Proof.
  induction 1 as [|e es [_ Hurl] _ IH].
  - reflexivity.
  - rewrite get_urls_cons. simpl. destruct (is_get e); simpl; [|exact IH].
    destruct (Hurl eq_refl) as [url ->]. simpl. rewrite IH. reflexivity.
Qed.

Lemma get_urls_elem (entries : list json) (url : json) :
  url ∈ get_urls entries <->
  exists entry, entry ∈ entries /\ is_get entry = true /\
                request_field entry "url" = Some url.
Proof.
  unfold get_urls. rewrite list_elem_of_omap. split.
  - intros (entry & Hin & Hurl). exists entry.
    apply list_elem_of_In, filter_In in Hin as [Hin Hget].
    split; [apply list_elem_of_In, Hin | split; assumption].
  - intros (entry & Hin & Hget & Hurl). exists entry. split; [|exact Hurl].
    apply list_elem_of_In, filter_In. split; [apply list_elem_of_In, Hin | exact Hget].
Qed.


(** ** When the pass returns, and what *)

(** X1: the pass returns exactly when [log.entries] can be walked and every
    entry has a [request.method], and a [request.url] when that method
    is [GET]; what it returns is then the urls of the [GET] entries.
    Entries with another method need no url. *)
Theorem pass_returns_iff (har_data : json) (out : list json) :
  cleaned har_data = Ok out <->
  exists entries,
    har_entries har_data = Ok entries /\
    Forall acceptable entries /\
    out = get_urls entries.
Proof.
  unfold cleaned. split.
  - destruct (har_entries har_data) as [entries|e]; simpl; [|discriminate].
    intros Hloop. apply for_loop_ok_iff in Hloop as [Hall ->].
    exists entries. split; [reflexivity | split; [exact Hall | reflexivity]].
  - intros (entries & -> & Hall & ->). simpl.
    apply for_loop_ok_iff. split; [exact Hall | reflexivity].
Qed.

(** X2: a returned list holds the url of every [GET] entry and nothing else,
    once per entry: equal urls are not merged, and the length of the
    list is the number of [GET] entries. *)
Theorem output_is_the_get_urls (har_data : json) (entries out : list json) :
  har_entries har_data = Ok entries ->
  cleaned har_data = Ok out ->
  (forall url, url ∈ out <->
     exists entry, entry ∈ entries /\ is_get entry = true /\
                   request_field entry "url" = Some url) /\
  length out = length (List.filter is_get entries).
Proof.
  unfold cleaned. intros ->. simpl. intros Hloop.
  apply for_loop_ok_iff in Hloop as [Hall ->]. simpl. split.
  - intros url. apply get_urls_elem.
  - apply get_urls_length, Hall.
Qed.

(** ** How the pass fails *)


(** X4: after entries that pass, a record entry that lacks a key makes the
    pass raise the [KeyError] of that key: [request] when the entry has
    no request, [method] when its request record has no method, and
    [url] when the method is [GET] and the request has no url. *)
Theorem missing_key_is_named (har_data : json) (before after : list json)
    (entry : json) :
  har_entries har_data = Ok (before ++ entry :: after) ->
  Forall acceptable before ->
  is_dict entry = true ->
  (field entry "request" = None ->
   cleaned har_data = Raise (KeyError "request")) /\
  (forall request,
     field entry "request" = Some request ->
     is_dict request = true ->
     field request "method" = None ->
     cleaned har_data = Raise (KeyError "method")) /\
  (request_field entry "method" = Some (JStr "GET") ->
   request_field entry "url" = None ->
   cleaned har_data = Raise (KeyError "url")).
Proof.
  intros He Hbefore Hdict. unfold cleaned. rewrite He. simpl.
  destruct entry as [| | | | | |items]; try discriminate. simpl.
  split; [|split].
  - intros Hr. apply for_loop_first_failure; [exact Hbefore |].
    intros acc'. rewrite loop_body_no_method.
    + rewrite Hr. reflexivity.
    + unfold request_field. simpl. rewrite Hr. reflexivity.
  - intros request Hr Hd Hm. apply for_loop_first_failure; [exact Hbefore |].
    destruct request as [| | | | | |ritems]; try discriminate. simpl in Hm.
    intros acc'. rewrite loop_body_no_method.
    + rewrite Hr. reflexivity.
    + unfold request_field. simpl. rewrite Hr. simpl. exact Hm.
  - intros Hm Hu. apply for_loop_first_failure; [exact Hbefore |].
    intros acc'. rewrite (loop_body_get _ _ Hm), Hu. reflexivity.
Qed.

(** X5: after entries that pass, an entry that is not a dict, or whose
    [request] is not a dict, makes the pass raise [TypeError]. *)
Theorem non_record_entry_raises (har_data : json) (before after : list json)
    (entry : json) :
  har_entries har_data = Ok (before ++ entry :: after) ->
  Forall acceptable before ->
  (is_dict entry = false \/
   exists request, field entry "request" = Some request /\ is_dict request = false) ->
  cleaned har_data = Raise TypeError.
Proof.
  intros He Hbefore Hshape. unfold cleaned. rewrite He. simpl.
  apply for_loop_first_failure; [exact Hbefore |]. intros acc'.
  destruct Hshape as [Hd | (request & Hr & Hd)].
  - destruct entry; try discriminate; reflexivity.
  - destruct entry as [| | | | | |items]; try discriminate. simpl in Hr.
    unfold loop_body. simpl. rewrite Hr. simpl.
    destruct request; try discriminate; reflexivity.
Qed.

(** X6: when [log.entries] is not a list: an empty dict or an empty string
    is walked like an empty list and yields the empty output; a dict or
    string that is not empty yields strings, on which the first
    subscript raises [TypeError]; the other values cannot be walked,
    which is [TypeError] too. *)
Theorem entries_not_a_list (har_data log entries : json) :
  field har_data "log" = Some log ->
  field log "entries" = Some entries ->
  (forall items, entries <> JArr items) ->
  cleaned har_data =
    match entries with
    | JObj [] | JStr EmptyString => Ok []
    | _ => Raise TypeError
    end.
Proof.
  intros Hlog Hent Hnot.
  destruct har_data as [| | | | | |items]; try discriminate.
  destruct log as [| | | | | |litems]; try discriminate.
  simpl in Hlog, Hent. unfold cleaned, har_entries. simpl.
  rewrite Hlog. simpl. rewrite Hent. simpl.
  destruct entries as [| | | |s|arr|eitems]; try reflexivity.
  - destruct s; reflexivity.
  - contradiction (Hnot arr). reflexivity.
  - destruct eitems; reflexivity.
Qed.

(** X7: a document that is not a dict, or whose [log] is not a dict, makes
    the pass raise [AttributeError] at a [.get]. *)
Theorem non_dict_document_raises (har_data : json) :
  (is_dict har_data = false \/
   exists log, field har_data "log" = Some log /\ is_dict log = false) ->
  cleaned har_data = Raise AttributeError.
Proof.
  intros [Hd | (log & Hlog & Hd)]; unfold cleaned, har_entries.
  - destruct har_data; try discriminate; reflexivity.
  - destruct har_data as [| | | | | |items]; try discriminate.
    simpl in Hlog. simpl. rewrite Hlog. simpl.
    destruct log; try discriminate; reflexivity.
Qed.

(** ** How the pass composes *)

Lemma loop_body_shift (acc : list json) (entry : json) :
  loop_body acc entry = (out ← loop_body [] entry; Ok (acc ++ out)).
Proof.
  destruct (loop_body [] entry) as [out|e] eqn:Hb; simpl.
  - apply loop_body_ok_iff in Hb as [Hacc ->].
    apply loop_body_ok_iff. split; [exact Hacc | reflexivity].
  - destruct (request_field entry "method") as [m|] eqn:Hm.
    + destruct (Py.ne_str m "GET") eqn:Hne.
      * rewrite (loop_body_skip _ _ _ Hm Hne) in Hb. discriminate.
      * apply ne_str_false in Hne. subst m.
        rewrite (loop_body_get [] _ Hm) in Hb. rewrite (loop_body_get acc _ Hm).
        destruct (request_field entry "url"); [discriminate | exact Hb].
    + rewrite (loop_body_no_method [] _ Hm) in Hb.
      rewrite (loop_body_no_method acc _ Hm). exact Hb.
Qed.

Lemma for_loop_shift (entries : list json) (acc : list json) :
  for_loop entries acc = (out ← for_loop entries []; Ok (acc ++ out)).
Proof.
  revert acc. induction entries as [|e es IH]; intros acc; simpl.
  - rewrite app_nil_r. reflexivity.
  - rewrite (loop_body_shift acc e).
    destruct (loop_body [] e) as [o|err]; simpl; [|reflexivity].
    rewrite (IH (acc ++ o)), (IH o).
    destruct (for_loop es []) as [out|err]; simpl; [|reflexivity].
    rewrite app_assoc. reflexivity.
Qed.

(** X8: the pass over two sequences of entries put end to end is the pass
    over each, with the outputs put end to end; when one of them raises,
    the whole raises the exception met first. *)
Theorem pass_of_concatenation (entries1 entries2 : list json) :
  for_loop (entries1 ++ entries2) [] =
    (out1 ← for_loop entries1 [];
     out2 ← for_loop entries2 [];
     Ok (out1 ++ out2)).
Proof.
  rewrite for_loop_app.
  destruct (for_loop entries1 []) as [out1|e]; simpl; [|reflexivity].
  apply for_loop_shift.
Qed.

(** X9: the pass reads nothing of an entry but [request.method] and
    [request.url]: two sequences of entries that agree on these, entry
    by entry, give the same result, whatever else the entries hold. *)
Theorem only_method_and_url_matter (entries1 entries2 : list json)
    (acc : list json) :
  Forall2 (fun entry1 entry2 =>
             is_Some (request_field entry1 "method") /\
             request_field entry1 "method" = request_field entry2 "method" /\
             request_field entry1 "url" = request_field entry2 "url")
          entries1 entries2 ->
  for_loop entries1 acc = for_loop entries2 acc.
Proof.
  intros Hagree. revert acc.
  induction Hagree as [|e1 e2 es1 es2 ([m Hm1] & Hm & Hu) _ IH]; intros acc; simpl.
  - reflexivity.
  - assert (Hb : loop_body acc e1 = loop_body acc e2).
    { assert (Hm2 : request_field e2 "method" = Some m) by congruence.
      destruct (Py.ne_str m "GET") eqn:Hne.
      - rewrite (loop_body_skip _ _ _ Hm1 Hne), (loop_body_skip _ _ _ Hm2 Hne).
        reflexivity.
      - apply ne_str_false in Hne. subst m.
        rewrite (loop_body_get _ _ Hm1), (loop_body_get _ _ Hm2), Hu. reflexivity. }
    rewrite Hb. destruct (loop_body acc e2); simpl; [apply IH | reflexivity].
Qed.

(** ** The split of line 19 *)

Lemma str_split_nonempty (sep : ascii) (s : string) : Py.str_split sep s <> [].
Proof.
  destruct s as [|c rest]; simpl; [discriminate |].
  destruct (Ascii.eqb c sep); [discriminate |].
  destruct (Py.str_split sep rest); discriminate.
Qed.

Lemma concat_cons_char (sep : string) (c : ascii) (piece : string)
    (pieces : list string) :
  String.concat sep (String c piece :: pieces) =
  String c (String.concat sep (piece :: pieces)).
Proof.
  destruct pieces; reflexivity.
Qed.

(** X10: [sep.join(s.split(sep))] is [s], no piece holds the separator, and
    there is always a piece. *)
Theorem split_join (sep : ascii) (s : string) :
  String.concat (String sep EmptyString) (Py.str_split sep s) = s /\
  Forall (fun piece => sep ∉ list_ascii_of_string piece) (Py.str_split sep s) /\
  Py.str_split sep s <> [].
Proof.
  split; [|split; [|apply str_split_nonempty]].
  - induction s as [|c rest IH]; simpl; [reflexivity |].
    pose proof (str_split_nonempty sep rest) as Hne.
    destruct (Py.str_split sep rest) as [|piece pieces]; [contradiction|].
    destruct (Ascii.eqb_spec c sep) as [->|_].
    + simpl. simpl in IH. rewrite IH. reflexivity.
    + rewrite concat_cons_char, IH. reflexivity.
  - induction s as [|c rest IH]; simpl.
    + constructor; [|constructor]. simpl. apply not_elem_of_nil.
    + destruct (Ascii.eqb_spec c sep) as [->|Hc].
      * constructor; [simpl; apply not_elem_of_nil | exact IH].
      * destruct (Py.str_split sep rest) as [|piece pieces].
        -- constructor; [|constructor]. simpl.
           intros Hin. apply list_elem_of_singleton in Hin. congruence.
        -- inversion IH as [|? ? Hpiece Hpieces]; subst.
           constructor; [|exact Hpieces]. simpl.
           intros Hin. apply elem_of_cons in Hin as [->|Hin]; [congruence | contradiction].
Qed.

Lemma str_split_no_sep (sep : ascii) (s : string) :
  sep ∉ list_ascii_of_string s -> Py.str_split sep s = [s].
Proof.
  induction s as [|c rest IH]; simpl; [reflexivity |].
  intros Hnot. apply not_elem_of_cons in Hnot as [Hc Hrest].
  destruct (Ascii.eqb_spec c sep) as [->|_]; [congruence |].
  rewrite (IH Hrest). reflexivity.
Qed.

Lemma str_split_two (sep : ascii) (pre rest : string) :
  exists piece piece' pieces,
    Py.str_split sep (pre +:+ String sep rest) = piece :: piece' :: pieces.
Proof.
  induction pre as [|c pre IH]; simpl.
  - rewrite Ascii.eqb_refl.
    pose proof (str_split_nonempty sep rest) as Hne.
    destruct (Py.str_split sep rest) as [|piece pieces]; [contradiction|]. eauto.
  - destruct IH as (piece & piece' & pieces & ->).
    destruct (Ascii.eqb c sep); eauto.
Qed.

Lemma last_split_after_sep (sep : ascii) (pre p : string) :
  sep ∉ list_ascii_of_string p ->
  last (Py.str_split sep (pre +:+ String sep p)) = Some p.
Proof.
  intros Hnot. induction pre as [|c pre IH]; simpl.
  - rewrite Ascii.eqb_refl, (str_split_no_sep _ _ Hnot). reflexivity.
  - destruct (str_split_two sep pre p) as (piece & piece' & pieces & Hsplit).
    rewrite Hsplit in *. destruct (Ascii.eqb c sep); exact IH.
Qed.

Lemma last_sep_decomposition (sep : ascii) (s : string) :
  sep ∉ list_ascii_of_string s \/
  exists pre p, s = pre +:+ String sep p /\ sep ∉ list_ascii_of_string p.
Proof.
  induction s as [|c rest IH]; simpl.
  - left. apply not_elem_of_nil.
  - destruct IH as [Hnot | (pre & p & -> & Hnot)].
    + destruct (Ascii.eqb_spec c sep) as [->|Hc].
      * right. exists EmptyString, rest. split; [reflexivity | exact Hnot].
      * left. apply not_elem_of_cons. split; [congruence | exact Hnot].
    + right. exists (String c pre), p. split; [reflexivity | exact Hnot].
Qed.

(** X11: [s.split('/')[-1]] never raises on a str, and it is [p] exactly when
    [p] holds no [/] and [s] is [p] or ends in [/] followed by [p]. *)
Theorem final_segment_iff (s : string) :
  (exists p, final_segment s = Some p) /\
  (forall p,
     final_segment s = Some p <->
     ("/"%char ∉ list_ascii_of_string p) /\
     (s = p \/ exists pre, s = pre +:+ String "/" p)).
Proof.
  unfold final_segment.
  assert (Hfwd : exists p,
            last (Py.str_split "/" s) = Some p /\
            ("/"%char ∉ list_ascii_of_string p) /\
            (s = p \/ exists pre, s = pre +:+ String "/" p)).
  { destruct (last_sep_decomposition "/" s) as [Hnot | (pre & p & -> & Hnot)].
    - exists s. rewrite (str_split_no_sep _ _ Hnot). eauto.
    - exists p. rewrite (last_split_after_sep _ pre p Hnot). eauto. }
  destruct Hfwd as (p0 & Hlast & Hnot0 & Hshape0). split; [eauto |].
  intros p. split.
  - rewrite Hlast. intros [= <-]. split; assumption.
  - intros [Hnot [-> | (pre & ->)]].
    + rewrite (str_split_no_sep _ _ Hnot). reflexivity.
    + apply last_split_after_sep, Hnot.
Qed.

(** * Further properties of runs *)

Section MoreRuns.

Variable json_loads : string -> option json.
Variable json_dumps : list json -> string.

(** The three ways a run of [clean_har] ends. *)
Lemma clean_har_outcome (path : string) (w : world) :
  (files w !! path = None /\
   clean_har json_loads json_dumps path w = (Raise (FileNotFoundError path), w)) \/
  (exists text e,
     files w !! path = Some text /\
     clean_har json_loads json_dumps path w = (Raise e, read_only path w)) \/
  (exists text har_data out,
     files w !! path = Some text /\
     json_loads text = Some har_data /\
     cleaned har_data = Ok out /\
     clean_har json_loads json_dumps path w =
       (Ok (), rewritten path (json_dumps out) w)).
Proof.
  destruct (files w !! path) as [text|] eqn:Hf.
  - right. destruct (json_loads text) as [har_data|] eqn:Hl.
    + destruct (cleaned har_data) as [out|e] eqn:Hc.
      * right. exists text, har_data, out.
        rewrite (clean_har_writes json_loads json_dumps path text har_data out w Hf Hl Hc).
        repeat split; assumption.
      * left. exists text, e. split; [reflexivity |].
        apply (clean_har_raises json_loads json_dumps path text har_data e w Hf Hl Hc).
    + left. exists text, JSONDecodeError. split; [reflexivity |].
      apply (clean_har_undecodable json_loads json_dumps path text w Hf Hl).
  - left. split; [reflexivity |].
    apply (clean_har_missing json_loads json_dumps path w Hf).
Qed.

Lemma main_one_argument (script path : string) (w : world) :
  main json_loads json_dumps [script; path] w =
    match clean_har json_loads json_dumps path w with
    | (Ok _, w') => (Exited 0, w')
    | (Raise e, w') => (Uncaught e, w')
    end.
Proof.
  unfold main. simpl. unfold mbind, io_bind, lift. reflexivity.
Qed.

Lemma main_other_count (argv : list string) (w : world) :
  length argv <> 2%nat ->
  main json_loads json_dumps argv w = (Exited 1, snd (print usage w)).
Proof.
  intros Hlen. unfold main.
  destruct (Nat.eqb_spec (length argv) 2) as [Heq|_]; [contradiction | reflexivity].
Qed.

Lemma length_two (argv : list string) :
  length argv = 2%nat -> exists script path, argv = [script; path].
Proof.
  destruct argv as [|script [|path [|? ?]]]; try discriminate. eauto.
Qed.

(** ** Files *)

(** X12: on a path that names no file the run raises [FileNotFoundError] at
    the first [open] and leaves everything as it was: nothing is
    opened, and the file is not created by the second [open], which is
    never reached. *)
Theorem missing_file_is_not_created (path : string) (w : world) :
  files w !! path = None ->
  clean_har json_loads json_dumps path w = (Raise (FileNotFoundError path), w) /\
  files (snd (clean_har json_loads json_dumps path w)) !! path = None.
Proof.
  intros Hf. rewrite (clean_har_missing json_loads json_dumps path w Hf).
  split; [reflexivity | exact Hf].
Qed.

(** X13: a run changes no file but the one it is given, and prints nothing,
    however it ends. *)
Theorem other_files_untouched (path path' : string) (w : world) :
  path' <> path ->
  files (snd (clean_har json_loads json_dumps path w)) !! path' = files w !! path' /\
  stdout (snd (clean_har json_loads json_dumps path w)) = stdout w.
Proof.
  intros Hne.
  destruct (clean_har_outcome path w)
    as [[_ ->] | [(text & e & _ & ->) | (text & har_data & out & _ & _ & _ & ->)]];
    simpl; split; try reflexivity.
  apply lookup_insert_ne. congruence.
Qed.

(** X15: a run that returned cannot be repeated: when the decoder reads the
    written text back as the array that was dumped, the next run on the
    same path raises [AttributeError], and the file keeps the output of
    the first run. *)
Theorem second_run_after_success (path text : string) (har_data : json)
    (out : list json) (w : world) :
  files w !! path = Some text ->
  json_loads text = Some har_data ->
  cleaned har_data = Ok out ->
  json_loads (json_dumps out) = Some (JArr out) ->
  clean_har json_loads json_dumps path w = (Ok (), rewritten path (json_dumps out) w) /\
  clean_har json_loads json_dumps path (rewritten path (json_dumps out) w) =
    (Raise AttributeError, read_only path (rewritten path (json_dumps out) w)) /\
  files (read_only path (rewritten path (json_dumps out) w)) !! path =
    Some (json_dumps out).
Proof.
  intros Hf Hl Hc Hback.
  assert (Hf' : files (rewritten path (json_dumps out) w) !! path = Some (json_dumps out)).
  { simpl. apply lookup_insert_eq. }
  split; [exact (clean_har_writes json_loads json_dumps path text har_data out w Hf Hl Hc) |].
  split; [|exact Hf'].
  apply (clean_har_raises json_loads json_dumps path (json_dumps out) (JArr out)
           AttributeError _ Hf' Hback).
  reflexivity.
Qed.

(** ** The program *)

(** X17: the program ends with code 0 exactly when it is given one argument
    and the run of [clean_har] on it returns. *)
Theorem exit_0_iff (argv : list string) (w : world) :
  fst (main json_loads json_dumps argv w) = Exited 0 <->
  exists script path,
    argv = [script; path] /\
    fst (clean_har json_loads json_dumps path w) = Ok ().
Proof.
  split.
  - destruct (decide (length argv = 2%nat)) as [Hlen | Hlen].
    + destruct (length_two argv Hlen) as (script & path & ->).
      rewrite main_one_argument. intros Hexit. exists script, path.
      split; [reflexivity |].
      destruct (clean_har json_loads json_dumps path w) as [[[]|e] w']; simpl in *;
        [reflexivity | discriminate].
    + rewrite (main_other_count argv w Hlen). discriminate.
  - intros (script & path & -> & Hok). rewrite main_one_argument.
    destruct (clean_har json_loads json_dumps path w) as [[[]|e] w']; simpl in *;
      [reflexivity | discriminate].
Qed.

(** X18: the program prints the usage line when the argument count is wrong
    and nothing otherwise, whether the run returns or raises. *)
Theorem only_the_usage_line_is_printed (argv : list string) (w : world) :
  stdout (snd (main json_loads json_dumps argv w)) =
    if (length argv =? 2)%nat then stdout w else stdout w ++ [usage].
Proof.
  destruct (Nat.eqb_spec (length argv) 2) as [Hlen | Hlen].
  - destruct (length_two argv Hlen) as (script & path & ->).
    rewrite main_one_argument.
    destruct (clean_har_outcome path w)
      as [[_ ->] | [(text & e & _ & ->) | (text & har_data & out & _ & _ & _ & ->)]];
      reflexivity.
  - rewrite (main_other_count argv w Hlen). reflexivity.
Qed.

End MoreRuns.

(** ** Further instances on the sample data *)

Lemma post_then_get_acceptable :
  Forall acceptable [post_entry; entry_with "GET" "https://a.com/"].
Proof.
  repeat constructor; try (eexists; reflexivity); discriminate.
Defined.

(** A [POST] entry without a url does not stop the pass. *)
Lemma pass_returns_iff_sample :
  cleaned (har_of [post_entry; entry_with "GET" "https://a.com/"])
    = Ok [JStr "https://a.com/"].
Proof.
  apply (proj2 (pass_returns_iff
                  (har_of [post_entry; entry_with "GET" "https://a.com/"])
                  [JStr "https://a.com/"])).
  exists [post_entry; entry_with "GET" "https://a.com/"].
  split; [reflexivity | split; [exact post_then_get_acceptable | reflexivity]].
Defined.

(** The same url twice in the capture is twice in the output. *)
Lemma output_is_the_get_urls_sample :
  (forall url,
     url ∈ [JStr "https://a.com/"; JStr "https://a.com/"] <->
     exists entry,
       entry ∈ [entry_with "GET" "https://a.com/";
                entry_with "PUT" "https://a.com/put";
                entry_with "GET" "https://a.com/"] /\
       is_get entry = true /\ request_field entry "url" = Some url) /\
  length [JStr "https://a.com/"; JStr "https://a.com/"] = 2%nat.
Proof.
  apply (output_is_the_get_urls
           (har_of [entry_with "GET" "https://a.com/";
                    entry_with "PUT" "https://a.com/put";
                    entry_with "GET" "https://a.com/"])
           [entry_with "GET" "https://a.com/";
            entry_with "PUT" "https://a.com/put";
            entry_with "GET" "https://a.com/"]
           [JStr "https://a.com/"; JStr "https://a.com/"]).
  - reflexivity.
  - reflexivity.
Defined.


Lemma get_entry_acceptable :
  Forall acceptable [entry_with "GET" "https://a.com/"].
Proof.
  repeat constructor; eexists; reflexivity.
Defined.

(** Each missing key is the one the [KeyError] names. *)
Lemma missing_key_is_named_sample :
  cleaned (har_of [entry_with "GET" "https://a.com/"; bare_entry])
    = Raise (KeyError "request") /\
  cleaned (har_of [entry_with "GET" "https://a.com/"; request_without_method])
    = Raise (KeyError "method") /\
  cleaned (har_of [entry_with "GET" "https://a.com/"; get_entry_no_url])
    = Raise (KeyError "url").
Proof.
  split; [|split].
  - apply (missing_key_is_named
             (har_of [entry_with "GET" "https://a.com/"; bare_entry])
             [entry_with "GET" "https://a.com/"] [] bare_entry);
      [reflexivity | exact get_entry_acceptable | reflexivity | reflexivity].
  - destruct (missing_key_is_named
                (har_of [entry_with "GET" "https://a.com/"; request_without_method])
                [entry_with "GET" "https://a.com/"] [] request_without_method)
      as (_ & Hmethod & _);
      [reflexivity | exact get_entry_acceptable | reflexivity |].
    apply (Hmethod (JObj [("url", JStr "https://a.com/")])); reflexivity.
  - destruct (missing_key_is_named
                (har_of [entry_with "GET" "https://a.com/"; get_entry_no_url])
                [entry_with "GET" "https://a.com/"] [] get_entry_no_url)
      as (_ & _ & Hurl);
      [reflexivity | exact get_entry_acceptable | reflexivity |].
    apply Hurl; reflexivity.
Defined.

(** A number among the entries, and a request that is a string. *)
Lemma non_record_entry_raises_sample :
  cleaned (har_of [entry_with "GET" "https://a.com/"; JInt 5]) = Raise TypeError /\
  cleaned (har_of [entry_with "GET" "https://a.com/"; scalar_request_entry])
    = Raise TypeError.
Proof.
  split.
  - apply (non_record_entry_raises
             (har_of [entry_with "GET" "https://a.com/"; JInt 5])
             [entry_with "GET" "https://a.com/"] [] (JInt 5));
      [reflexivity | exact get_entry_acceptable | left; reflexivity].
  - apply (non_record_entry_raises
             (har_of [entry_with "GET" "https://a.com/"; scalar_request_entry])
             [entry_with "GET" "https://a.com/"] [] scalar_request_entry);
      [reflexivity | exact get_entry_acceptable |].
    right. exists (JStr "GET https://a.com/"). split; reflexivity.
Defined.

(** An [entries] that is an empty dict gives the empty output; one that
    is [null] raises. *)
Lemma entries_not_a_list_sample :
  cleaned (JObj [("log", JObj [("entries", JObj [])])]) = Ok [] /\
  cleaned (JObj [("log", JObj [("entries", JNull)])]) = Raise TypeError.
Proof.
  split.
  - apply (entries_not_a_list (JObj [("log", JObj [("entries", JObj [])])])
             (JObj [("entries", JObj [])]) (JObj []));
      [reflexivity | reflexivity | discriminate].
  - apply (entries_not_a_list (JObj [("log", JObj [("entries", JNull)])])
             (JObj [("entries", JNull)]) JNull);
      [reflexivity | reflexivity | discriminate].
Defined.

(** A [log] that is [null], and a document that is a string. *)
Lemma non_dict_document_raises_sample :
  cleaned (JObj [("log", JNull)]) = Raise AttributeError /\
  cleaned (JStr "log") = Raise AttributeError.
Proof.
  split.
  - apply (non_dict_document_raises (JObj [("log", JNull)])).
    right. exists JNull. split; reflexivity.
  - apply (non_dict_document_raises (JStr "log")). left. reflexivity.
Defined.

(** Entries with timings, headers and a response clean like bare ones. *)
Lemma only_method_and_url_matter_sample :
  for_loop [noisy_entry "GET" "https://a.com/"; noisy_entry "POST" "https://a.com/p"] []
  = for_loop [entry_with "GET" "https://a.com/"; entry_with "POST" "https://a.com/p"] [].
Proof.
  apply (only_method_and_url_matter
           [noisy_entry "GET" "https://a.com/"; noisy_entry "POST" "https://a.com/p"]
           [entry_with "GET" "https://a.com/"; entry_with "POST" "https://a.com/p"] []).
  repeat constructor; eexists; reflexivity.
Defined.

Lemma favicon_has_no_slash : ("/"%char ∉ list_ascii_of_string "favicon.ico").
Proof.
  simpl. rewrite !not_elem_of_cons. repeat split; try discriminate.
  apply not_elem_of_nil.
Defined.

(** The final segment of a method ending in [/favicon.ico]. *)
Lemma final_segment_iff_sample :
  final_segment "GET/favicon.ico" = Some "favicon.ico".
Proof.
  apply (proj2 (final_segment_iff "GET/favicon.ico") "favicon.ico").
  split; [exact favicon_has_no_slash |].
  right. exists "GET". reflexivity.
Defined.

Lemma missing_file_is_not_created_sample :
  clean_har sample_loads sample_dumps "absent.har" sample_world =
    (Raise (FileNotFoundError "absent.har"), sample_world) /\
  files (snd (clean_har sample_loads sample_dumps "absent.har" sample_world))
    !! "absent.har" = None.
Proof.
  apply (missing_file_is_not_created sample_loads sample_dumps "absent.har"
           sample_world).
  vm_compute. reflexivity.
Defined.

Lemma other_files_untouched_sample :
  files (snd (clean_har sample_loads sample_dumps "capture.har" sample_world))
    !! "other.har" = files sample_world !! "other.har" /\
  stdout (snd (clean_har sample_loads sample_dumps "capture.har" sample_world))
    = stdout sample_world.
Proof.
  apply (other_files_untouched sample_loads sample_dumps "capture.har" "other.har"
           sample_world).
  discriminate.
Defined.

(** The two runs on the sample capture. *)
Lemma second_run_after_success_sample :
  clean_har sample_loads sample_dumps "capture.har" sample_world =
    (Ok (), rewritten "capture.har" (sample_dumps sample_urls) sample_world) /\
  clean_har sample_loads sample_dumps "capture.har"
    (rewritten "capture.har" (sample_dumps sample_urls) sample_world) =
    (Raise AttributeError,
     read_only "capture.har"
       (rewritten "capture.har" (sample_dumps sample_urls) sample_world)) /\
  files (read_only "capture.har"
           (rewritten "capture.har" (sample_dumps sample_urls) sample_world))
    !! "capture.har" = Some (sample_dumps sample_urls).
Proof.
  apply (second_run_after_success sample_loads sample_dumps "capture.har"
           sample_text sample_har sample_urls sample_world).
  - vm_compute. reflexivity.
  - vm_compute. reflexivity.
  - reflexivity.
  - vm_compute. reflexivity.
Defined.

Lemma exit_0_iff_sample :
  fst (main sample_loads sample_dumps ["clean_har.py"; "capture.har"] sample_world)
    = Exited 0.
Proof.
  apply (proj2 (exit_0_iff sample_loads sample_dumps
                  ["clean_har.py"; "capture.har"] sample_world)).
  exists "clean_har.py", "capture.har". split; [reflexivity |].
  vm_compute. reflexivity.
Defined.

(** * Runs on a system that fails the write stage *)

Lemma string_take_prefix (n : nat) (text : string) :
  exists rest, text = string_take n text +:+ rest.
Proof.
  revert text. induction n as [|n IH]; intros text.
  - exists text. destruct text; reflexivity.
  - destruct text as [|c text].
    + exists EmptyString. reflexivity.
    + destruct (IH text) as [rest Hrest]. exists rest.
      exact (f_equal (String c) Hrest).
Qed.

Lemma no_write_open_in_read_log (path : string) :
  Opened path WriteMode ∉ [Opened path ReadMode; Closed path].
Proof.
  intros Hin.
  apply elem_of_cons in Hin as [Hin | Hin]; [discriminate |].
  apply list_elem_of_singleton in Hin. discriminate.
Qed.

Lemma balanced_read_write (path : string) :
  balanced [Opened path ReadMode; Closed path] = true /\
  balanced [Opened path ReadMode; Closed path;
            Opened path WriteMode; Closed path] = true.
Proof.
  simpl. rewrite String.eqb_refl. split; reflexivity.
Qed.

Section WriteFaults.

Variable json_loads : string -> option json.
Variable json_dumps : list json -> string.

(** The write stage, fault by fault. *)
Lemma write_stage_under (fault : write_fault) (path : string) (out : list json)
    (w : world) :
  with_open_under fault path WriteMode
    (json_dump_under json_dumps fault out path) (read_only path w) =
    match fault with
    | NoFault => (Ok (), rewritten path (json_dumps out) w)
    | OpenFails => (Raise OSError, read_only path w)
    | DumpFails written =>
        (Raise OSError, rewritten path (string_take written (json_dumps out)) w)
    end.
Proof.
  destruct fault as [| |written];
    unfold with_open_under, open_file_under, open_file, json_dump_under, json_dump,
      close_file, rewritten, read_only, record_event, set_content; simpl.
  - rewrite lookup_insert_eq, insert_insert_eq. simpl.
    rewrite <- !app_assoc. reflexivity.
  - reflexivity.
  - rewrite lookup_insert_eq, insert_insert_eq. simpl.
    rewrite <- !app_assoc. reflexivity.
Qed.

(** How a run ends, stage by stage and fault by fault. *)
Lemma clean_har_under_outcome (fault : write_fault) (path : string) (w : world) :
  clean_har_under json_loads json_dumps fault path w =
    match files w !! path with
    | None => (Raise (FileNotFoundError path), w)
    | Some text =>
        match json_loads text with
        | None => (Raise JSONDecodeError, read_only path w)
        | Some har_data =>
            match cleaned har_data with
            | Raise e => (Raise e, read_only path w)
            | Ok out =>
                match fault with
                | NoFault => (Ok (), rewritten path (json_dumps out) w)
                | OpenFails => (Raise OSError, read_only path w)
                | DumpFails written =>
                    (Raise OSError,
                     rewritten path (string_take written (json_dumps out)) w)
                end
            end
        end
    end.
Proof.
  unfold clean_har_under, mbind, io_bind.
  destruct (files w !! path) as [text|] eqn:Hf.
  - rewrite (read_stage json_loads path text w Hf).
    destruct (json_loads text) as [har_data|]; [|reflexivity].
    unfold lift. destruct (cleaned har_data) as [out|e]; [|reflexivity].
    apply write_stage_under.
  - unfold with_open, open_file. rewrite Hf. reflexivity.
Qed.

(** Without a fault the run is the run of [clean_har]. *)
Lemma clean_har_under_no_fault (path : string) (w : world) :
  clean_har_under json_loads json_dumps NoFault path w =
  clean_har json_loads json_dumps path w.
Proof.
  rewrite clean_har_under_outcome.
  destruct (files w !! path) as [text|] eqn:Hf.
  - destruct (json_loads text) as [har_data|] eqn:Hl.
    + destruct (cleaned har_data) as [out|e] eqn:Hc.
      * symmetry. exact (clean_har_writes json_loads json_dumps path text har_data out w Hf Hl Hc).
      * symmetry. exact (clean_har_raises json_loads json_dumps path text har_data e w Hf Hl Hc).
    + symmetry. exact (clean_har_undecodable json_loads json_dumps path text w Hf Hl).
  - symmetry. exact (clean_har_missing json_loads json_dumps path w Hf).
Qed.

Lemma main_under_one_argument (fault : write_fault) (script path : string)
    (w : world) :
  main_under json_loads json_dumps fault [script; path] w =
    match clean_har_under json_loads json_dumps fault path w with
    | (Ok _, w') => (Exited 0, w')
    | (Raise e, w') => (Uncaught e, w')
    end.
Proof.
  unfold main_under. simpl. unfold mbind, io_bind, lift. reflexivity.
Qed.

Lemma main_under_other_count (fault : write_fault) (argv : list string)
    (w : world) :
  length argv <> 2%nat ->
  main_under json_loads json_dumps fault argv w = (Exited 1, snd (print usage w)).
Proof.
  intros Hlen. unfold main_under.
  destruct (Nat.eqb_spec (length argv) 2) as [Heq|_]; [contradiction | reflexivity].
Qed.

(** X14: whatever the system does to the write stage, the files a run
    opens are closed one by one: its file operations are pairs of an
    open and the close of the same file, also when the run ends by an
    exception, raised by the pass or by the write stage.  The file is
    opened for writing only after the pass has returned. *)
Theorem opened_files_are_closed (fault : write_fault) (path : string) (w : world) :
  exists events,
    io_log (snd (clean_har_under json_loads json_dumps fault path w)) =
      io_log w ++ events /\
    balanced events = true /\
    (Opened path WriteMode ∈ events ->
     exists text har_data out,
       files w !! path = Some text /\
       json_loads text = Some har_data /\
       cleaned har_data = Ok out).
Proof.
  rewrite clean_har_under_outcome.
  destruct (balanced_read_write path) as [Hread Hwrite].
  assert (Hr : exists events,
             io_log (read_only path w) = io_log w ++ events /\
             balanced events = true /\
             (Opened path WriteMode ∈ events ->
              exists text har_data out,
                files w !! path = Some text /\
                json_loads text = Some har_data /\
                cleaned har_data = Ok out)).
  { exists [Opened path ReadMode; Closed path].
    split; [reflexivity | split; [exact Hread |]].
    intros Hin. contradiction (no_write_open_in_read_log path Hin). }
  destruct (files w !! path) as [text|] eqn:Hf.
  - destruct (json_loads text) as [har_data|] eqn:Hl; [|exact Hr].
    destruct (cleaned har_data) as [out|e] eqn:Hc; [|exact Hr].
    destruct fault as [| |written]; [|exact Hr|];
      (exists [Opened path ReadMode; Closed path; Opened path WriteMode; Closed path];
       split; [reflexivity | split; [exact Hwrite |]];
       intros _; exists text, har_data, out; repeat split; assumption).
  - exists []. simpl. rewrite app_nil_r.
    split; [reflexivity | split; [reflexivity |]].
    intros Hin. inversion Hin.
Qed.

(** X16: whatever the system does to the write stage, the program leaves
    every file as it was unless it was given one argument, the file
    there was decoded and the pass returned; then the only file that
    may differ is that one, and it holds the dumped text or a leading
    part of it. *)
Theorem files_change_only_after_the_pass (fault : write_fault)
    (argv : list string) (w : world) :
  files (snd (main_under json_loads json_dumps fault argv w)) = files w \/
  exists script path text har_data out written,
    argv = [script; path] /\
    files w !! path = Some text /\
    json_loads text = Some har_data /\
    cleaned har_data = Ok out /\
    files (snd (main_under json_loads json_dumps fault argv w)) =
      <[path := written]> (files w) /\
    exists rest, json_dumps out = written +:+ rest.
Proof.
  destruct (decide (length argv = 2%nat)) as [Hlen | Hlen].
  - destruct (length_two argv Hlen) as (script & path & ->).
    rewrite main_under_one_argument, clean_har_under_outcome.
    destruct (files w !! path) as [text|] eqn:Hf; [|left; reflexivity].
    destruct (json_loads text) as [har_data|] eqn:Hl; [|left; reflexivity].
    destruct (cleaned har_data) as [out|e] eqn:Hc; [|left; reflexivity].
    destruct fault as [| |n]; [|left; reflexivity|]; right.
    + exists script, path, text, har_data, out, (json_dumps out).
      repeat split; try assumption; try reflexivity.
      exists EmptyString. clear. induction (json_dumps out) as [|c t IH];
        [reflexivity | exact (f_equal (String c) IH)].
    + exists script, path, text, har_data, out, (string_take n (json_dumps out)).
      repeat split; try assumption; try reflexivity.
      apply string_take_prefix.
  - rewrite (main_under_other_count fault argv w Hlen). left. reflexivity.
Qed.

(** X19: the write is not atomic.  Once the pass has returned, a failure
    of [open(path, 'w')] ends the run by that exception with the file
    untouched; a failure of the dump or of the close ends it by that
    exception with the capture gone, the file holding only the part of
    the output written so far; and the program ends by the exception,
    not by an exit code. *)
Theorem write_failure_loses_the_capture (path text : string) (har_data : json)
    (out : list json) (w : world) :
  files w !! path = Some text ->
  json_loads text = Some har_data ->
  cleaned har_data = Ok out ->
  clean_har_under json_loads json_dumps OpenFails path w =
    (Raise OSError, read_only path w) /\
  (forall written,
     clean_har_under json_loads json_dumps (DumpFails written) path w =
       (Raise OSError, rewritten path (string_take written (json_dumps out)) w) /\
     files (rewritten path (string_take written (json_dumps out)) w) !! path =
       Some (string_take written (json_dumps out))) /\
  (forall written script,
     fst (main_under json_loads json_dumps (DumpFails written) [script; path] w) =
       Uncaught OSError).
Proof.
  intros Hf Hl Hc. split; [|split].
  - rewrite clean_har_under_outcome, Hf, Hl, Hc. reflexivity.
  - intros written. split.
    + rewrite clean_har_under_outcome, Hf, Hl, Hc. reflexivity.
    + simpl. apply lookup_insert_eq.
  - intros written script.
    rewrite main_under_one_argument, clean_har_under_outcome, Hf, Hl, Hc.
    reflexivity.
Qed.

End WriteFaults.

(** ** Instances with a failing write stage *)

(** The sample run with a dump that fails after five characters. *)
Lemma opened_files_are_closed_sample :
  exists events,
    io_log (snd (clean_har_under sample_loads sample_dumps (DumpFails 5)
                   "capture.har" sample_world)) =
      io_log sample_world ++ events /\
    balanced events = true /\
    (Opened "capture.har" WriteMode ∈ events ->
     exists text har_data out,
       files sample_world !! "capture.har" = Some text /\
       sample_loads text = Some har_data /\
       cleaned har_data = Ok out).
Proof.
  exact (opened_files_are_closed sample_loads sample_dumps (DumpFails 5)
           "capture.har" sample_world).
Defined.

Lemma write_failure_loses_the_capture_sample :
  clean_har_under sample_loads sample_dumps OpenFails "capture.har" sample_world =
    (Raise OSError, read_only "capture.har" sample_world) /\
  clean_har_under sample_loads sample_dumps (DumpFails 5) "capture.har" sample_world =
    (Raise OSError, rewritten "capture.har" "https" sample_world) /\
  fst (main_under sample_loads sample_dumps (DumpFails 5)
         ["clean_har.py"; "capture.har"] sample_world) = Uncaught OSError.
Proof.
  destruct (write_failure_loses_the_capture sample_loads sample_dumps "capture.har"
              sample_text sample_har sample_urls sample_world)
    as (Hopen & Hdump & Hmain).
  - vm_compute. reflexivity.
  - vm_compute. reflexivity.
  - reflexivity.
  - split; [exact Hopen |]. split; [exact (proj1 (Hdump 5%nat)) |].
    exact (Hmain 5%nat "clean_har.py").
Defined.
